(** * fix_transcripts.py: a shallow embedding and its properties

    The program rewrites known transcription errors in a transcript.  Its
    core is two functions, [create_fix_mapping] (a dict merge) and
    [fix_transcript] (one replacement pass per rule of the dict, in
    insertion order), wrapped by [process_file] (read, transform, write).

    Python values are modelled as follows.
    - A [str] is the list of its Unicode code points ([N]).
    - A [Dict[str, str]] is an association list in insertion order; a
      well-formed dict has pairwise distinct keys ([Py.wf_dict]).
    - A call that may raise returns an [option] ([None]: an exception
      escapes the call); [process_file] receives the operating system as
      a record of outcomes (of reading, of writing and of [print]) and
      returns the calls it made, what it printed and how it ended.
      Exceptions outside [Exception] ([KeyboardInterrupt]) are not
      modelled.
    - The library calls the program makes ([in], [str.replace],
      [dict.update], [re.escape], [re.sub]) are modelled from the
      behaviour of CPython 3.12. *)

From Stdlib Require Import List NArith Bool String Ascii Lia.
Import ListNotations.
Local Open Scope N_scope.

(** ** Python strings and dicts *)

Module Py.

Definition str := list N.

(** [lit "abc"] is the Python literal ["abc"], for ASCII literals. *)
Definition lit (s : string) : str :=
  map N_of_ascii (list_ascii_of_string s).

Fixpoint eqb (a b : str) : bool :=
  match a, b with
  | [], [] => true
  | x :: a', y :: b' => (x =? y) && eqb a' b'
  | _, _ => false
  end.

(** [startswith s p] is [s.startswith(p)]. *)
Fixpoint startswith (s p : str) : bool :=
  match p, s with
  | [], _ => true
  | _ :: _, [] => false
  | x :: p', y :: s' => (x =? y) && startswith s' p'
  end.

(** [contains_char c s] is [c in s] for a one-character string [c]. *)
Definition contains_char (c : N) (s : str) : bool :=
  existsb (N.eqb c) s.

Definition head (s : str) : option N :=
  match s with [] => None | c :: _ => Some c end.

(** The character that precedes position [len(p)] of a text starting with
    [p], when [prev] precedes the text. *)
Fixpoint last_before (prev : option N) (p : str) : option N :=
  match p with
  | [] => prev
  | c :: p' => last_before (Some c) p'
  end.

(** *** Left-to-right, non-overlapping replacement

    [str.replace] and [re.sub] share one scanning discipline: find the
    leftmost position where the pattern matches, emit the replacement,
    resume right after the matched text; after an empty match one
    character of the text is copied before the search resumes.
    [matches prev s] decides a match at the position whose preceding
    character is [prev] and whose remaining text is [s]; a match covers
    [width] characters.  [skip] counts the characters of the current
    match that are still to be passed over. *)
Section Scan.
Variable matches : option N -> str -> bool.
Variable width : nat.
Variable new : str.

Fixpoint scan (prev : option N) (s : str) (skip : nat) : str :=
  match s with
  | [] =>
      match skip with
      | O => if matches prev [] then new else []
      | S _ => []
      end
  | c :: s' =>
      match skip with
      | S k => scan (Some c) s' k
      | O =>
          if matches prev s then
            new ++ match width with
                   | O => c :: scan (Some c) s' 0
                   | S k => scan (Some c) s' k
                   end
          else c :: scan (Some c) s' 0
      end
  end.

(** Is there a position of [s] where the pattern matches? *)
Fixpoint occurs (prev : option N) (s : str) : bool :=
  matches prev s ||
  match s with
  | [] => false
  | c :: s' => occurs (Some c) s'
  end.
End Scan.

(** [replace s old new] is [s.replace(old, new)]. *)
Definition replace (s old new : str) : str :=
  scan (fun _ t => startswith t old) (List.length old) new None s 0.

(** [find old s] is [old in s]. *)
Definition find (old s : str) : bool :=
  occurs (fun _ t => startswith t old) None s.

(** *** Dicts, in insertion order *)

Definition dict := list (str * str).

Definition keys (d : dict) : list str := map fst d.

Definition wf_dict (d : dict) : Prop := NoDup (keys d).

(** [get d k] is [d.get(k)]. *)
Fixpoint get (d : dict) (k : str) : option str :=
  match d with
  | [] => None
  | (k', v') :: d' => if eqb k' k then Some v' else get d' k
  end.

(** [setitem d k v] is [d[k] = v]: an existing key keeps its place and
    takes the new value, a new key goes to the end. *)
Fixpoint setitem (d : dict) (k v : str) : dict :=
  match d with
  | [] => [(k, v)]
  | (k', v') :: d' =>
      if eqb k' k then (k', v) :: d' else (k', v') :: setitem d' k v
  end.

(** [update d other] is [d.update(other)]. *)
Definition update (d other : dict) : dict :=
  fold_left (fun acc kv => setitem acc (fst kv) (snd kv)) other d.

(** Truth value of an optional dict: [None] and [{}] are false. *)
Definition truthy_dict (o : option dict) : bool :=
  match o with
  | Some (_ :: _) => true
  | _ => false
  end.

(** Truth value of an optional string: [None] and [""] are false. *)
Definition truthy_str (o : option str) : bool :=
  match o with
  | Some (_ :: _) => true
  | _ => false
  end.

End Py.

(** ** The part of [re] the program uses *)

Module Re.

(** [str.isalnum] of the code points outside ASCII comes from Python's
    Unicode database, which is not part of the program: it is a parameter
    of the model. *)
Class unicodedata := { isalnum_nonascii : N -> bool }.

Definition is_digit (c : N) : bool := (48 <=? c) && (c <=? 57).
Definition is_octdigit (c : N) : bool := (48 <=? c) && (c <=? 55).
Definition is_ascii_letter (c : N) : bool :=
  (65 <=? c) && (c <=? 90) || (97 <=? c) && (c <=? 122).

Section Matching.
Context {U : unicodedata}.

(** [\w] on a [str] pattern: alphanumeric or underscore. *)
Definition is_word (c : N) : bool :=
  (c =? 95) ||
  (if c <? 128 then is_ascii_letter c || is_digit c else isalnum_nonascii c).

Definition is_word_opt (o : option N) : bool :=
  match o with
  | Some c => is_word c
  | None => false
  end.

(** [\b] between the characters [prev] and [next] ([None] at either end of
    the text). *)
Definition at_boundary (prev next : option N) : bool :=
  xorb (is_word_opt prev) (is_word_opt next).

(** A compiled pattern, for the patterns the program builds. *)
Inductive atom := AtBoundary | Literal (c : N).
Definition pattern := list atom.

(** [escape s] is the compiled form of [re.escape(s)]: every character of
    [s] is matched literally. *)
Definition escape (s : Py.str) : pattern := map Literal s.

Fixpoint match_at (p : pattern) (prev : option N) (s : Py.str) : bool :=
  match p with
  | [] => true
  | AtBoundary :: p' => at_boundary prev (Py.head s) && match_at p' prev s
  | Literal c :: p' =>
      match s with
      | [] => false
      | d :: s' => (c =? d) && match_at p' (Some d) s'
      end
  end.

(** The text a pattern matches, which its literals determine. *)
Fixpoint matched_text (p : pattern) : Py.str :=
  match p with
  | [] => []
  | AtBoundary :: p' => matched_text p'
  | Literal c :: p' => c :: matched_text p'
  end.

End Matching.

(** *** Replacement templates

    [re.sub] reads its replacement argument as a template: a backslash
    starts an escape.  For a pattern without groups the only group
    reference that is accepted is group 0, written [\g<0>]. *)
Inductive template_item := TLiteral (c : N) | TGroup0.

Inductive template_mode := InText | InGroupName (seen_digit : bool).

Definition escape_char (e : N) : option N :=
  if e =? 97 then Some 7          (* \a *)
  else if e =? 98 then Some 8     (* \b *)
  else if e =? 102 then Some 12   (* \f *)
  else if e =? 110 then Some 10   (* \n *)
  else if e =? 114 then Some 13   (* \r *)
  else if e =? 116 then Some 9    (* \t *)
  else if e =? 118 then Some 11   (* \v *)
  else if e =? 92 then Some 92    (* \\ *)
  else None.

Definition octal (ds : list N) : N :=
  fold_left (fun acc d => 8 * acc + (d - 48)) ds 0.

Definition item_cons (i : template_item) (r : option (list template_item))
  : option (list template_item) :=
  option_map (cons i) r.

(** [parse_template m s] is [re._parser.parse_template] for a pattern with
    no group; [None] stands for the [re.error] (or [IndexError]) it
    raises.  The escapes are: [\g<0>] (the name is one or more ASCII zeros),
    the octal escapes [\0], [\0d], [\0dd] and [\ddd], the character
    escapes of [escape_char], and a backslash before any other character
    that is not an ASCII letter or digit, which stays as it is.  A single
    backslash at the end, a reference to a group other than 0 and an
    unknown letter escape are errors. *)
Fixpoint parse_template (m : template_mode) (s : Py.str)
  : option (list template_item) :=
  match m, s with
  | InGroupName _, [] => None
  | InGroupName seen, c :: s' =>
      if c =? 48 then parse_template (InGroupName true) s'
      else if (c =? 62) && seen then item_cons TGroup0 (parse_template InText s')
      else None
  | InText, [] => Some []
  | InText, c :: s' =>
      if negb (c =? 92) then item_cons (TLiteral c) (parse_template InText s')
      else
        match s' with
        | [] => None
        | e :: s2 =>
            if e =? 103 then
              match s2 with
              | [] => None
              | lt :: s3 =>
                  if lt =? 60 then parse_template (InGroupName false) s3
                  else None
              end
            else if e =? 48 then
              match s2 with
              | [] => Some [TLiteral 0]
              | d2 :: s3 =>
                  if is_octdigit d2 then
                    match s3 with
                    | [] => Some [TLiteral (N.land (octal [d2]) 255)]
                    | d3 :: s4 =>
                        if is_octdigit d3 then
                          item_cons (TLiteral (N.land (octal [d2; d3]) 255))
                                    (parse_template InText s4)
                        else
                          item_cons (TLiteral (N.land (octal [d2]) 255))
                                    (parse_template InText s3)
                    end
                  else item_cons (TLiteral 0) (parse_template InText s2)
              end
            else if is_digit e then
              match s2 with
              | d2 :: d3 :: s4 =>
                  if is_octdigit e && is_octdigit d2 && is_octdigit d3 then
                    if octal [e; d2; d3] <=? 255 then
                      item_cons (TLiteral (octal [e; d2; d3]))
                                (parse_template InText s4)
                    else None
                  else None
              | _ => None
              end
            else
              match escape_char e with
              | Some x => item_cons (TLiteral x) (parse_template InText s2)
              | None =>
                  if is_ascii_letter e then None
                  else item_cons (TLiteral 92)
                         (item_cons (TLiteral e) (parse_template InText s2))
              end
        end
  end.

Definition expand (t : list template_item) (m : Py.str) : Py.str :=
  flat_map (fun i => match i with TLiteral c => [c] | TGroup0 => m end) t.

(** [sub p repl s] is [re.sub(p, repl, s)] for a compiled pattern [p]: the
    template is compiled before the search starts. *)
Definition sub {U : unicodedata} (p : pattern) (repl s : Py.str)
  : option Py.str :=
  match parse_template InText repl with
  | None => None
  | Some t =>
      let m := matched_text p in
      Some (Py.scan (match_at p) (List.length m) (expand t m) None s 0)
  end.

(** A whole-word occurrence of [w]: the text continues with [w], with a
    word boundary before it and a word boundary after it. *)
Definition whole_word {U : unicodedata} (w : Py.str)
  (prev : option N) (s : Py.str) : bool :=
  Py.startswith s w &&
  (at_boundary prev (Py.head s) &&
   at_boundary (Py.last_before prev w) (Py.head (skipn (List.length w) s))).

End Re.

(** ** The program *)

Section Program.
Context {U : Re.unicodedata}.

(** The table of [create_fix_mapping], in source order.  The value for
    ["Dali"] holds U+00B7 (middle dot). *)
Definition default_mapping : Py.dict :=
  [ (* ML orgs *)
    (Py.lit "noose", Py.lit "Nous");
    (Py.lit "Dali", Py.lit "DALL" ++ [183] ++ Py.lit "E");
    (Py.lit "DeepSeq", Py.lit "DeepSeek");
    (* models *)
    (Py.lit " lama ", Py.lit " Llama ");
    (Py.lit "Lama", Py.lit "Llama");
    (Py.lit "LAMA", Py.lit "Llama");
    (Py.lit "Lama 1", Py.lit "Llama 1");
    (Py.lit "OMO2", Py.lit "OLMo 2");
    (Py.lit "OMO1", Py.lit "OLMo 1");
    (Py.lit "ALMO", Py.lit "OLMo");
    (Py.lit "Allmo", Py.lit "OLMo");
    (* names *)
    (Py.lit "Swyggs", Py.lit "Swyx");
    (Py.lit "Grenenfeld", Py.lit "Groeneveld");
    (Py.lit "Kyle Lowe", Py.lit "Kyle Lo");
    (Py.lit "Luca Soldini", Py.lit "Luca Soldaini") ].

Definition create_fix_mapping (custom_mapping : option Py.dict) : Py.dict :=
  match custom_mapping with
  | Some m =>
      if Py.truthy_dict custom_mapping then Py.update default_mapping m
      else default_mapping
  | None => default_mapping
  end.

(** The body of the loop of [fix_transcript], for one item of the
    mapping. *)
Definition fix_rule (fixed_content wrong correct : Py.str) : option Py.str :=
  if Py.contains_char 32 wrong then
    Some (Py.replace fixed_content wrong correct)
  else
    let pattern := Re.AtBoundary :: Re.escape wrong ++ [Re.AtBoundary] in
    Re.sub pattern correct fixed_content.

(** [fix_transcript content mapping]: the loop over [mapping.items()],
    with [content] as the running [fixed_content]. *)
Fixpoint fix_transcript (content : Py.str) (mapping : Py.dict)
  : option Py.str :=
  match mapping with
  | [] => Some content
  | (wrong, correct) :: rest =>
      match fix_rule content wrong correct with
      | Some fixed_content => fix_transcript fixed_content rest
      | None => None
      end
  end.

(** *** Files and the process *)

(** The exceptions the [try] block of [process_file] tells apart.
    [TemplateError] is what [re.sub] raises on a replacement it rejects;
    [OtherException] is any other subclass of [Exception], with its
    [str(e)]. *)
Inductive exception :=
| FileNotFoundError (description : Py.str)
| TemplateError
| OtherException (description : Py.str).

Inductive output_line :=
| Successfully_processed (input_file : Py.str)
| Output_written_to (output_file : Py.str)
| Could_not_find_file (input_file : Py.str)
| Error_processing_file (e : exception).

(** The operating system, as the outcome of the calls the program makes:
    the [with] block that opens a file and reads it, the [with] block
    that opens a file and writes it, and [print].  [read_text path] is
    what [f.read()] returns or the exception the block raises;
    [write_text path content] and [print_fault line] are the exception
    raised, if any. *)
Record os := {
  read_text : Py.str -> exception + Py.str;
  write_text : Py.str -> Py.str -> option exception;
  print_fault : output_line -> option exception
}.

(** How [process_file] ends: it returns, it calls [sys.exit], or an
    exception raised inside a handler leaves it. *)
Inductive termination :=
| Returned
| SysExit (code : N)
| Uncaught (e : exception).

(** The calls [process_file] makes, in the order it makes them, whether
    they return or raise. *)
Inductive event :=
| Reads (path : Py.str)
| Writes (path content : Py.str)
| Prints (line : output_line).

(** What a run has done so far: the calls made, and the lines whose
    [print] returned. *)
Definition log : Type := list event * list output_line.

Definition log_app (l1 l2 : log) : log :=
  (fst l1 ++ fst l2, snd l1 ++ snd l2).

(** A statement sequence that may raise: its log, and its value or the
    exception that ended it. *)
Definition run (A : Type) : Type := log * (exception + A).

Definition ret {A : Type} (a : A) : run A := (([], []), inr a).

Definition run_bind {A B : Type} (x : run A) (f : A -> run B) : run B :=
  match snd x with
  | inl e => (fst x, inl e)
  | inr a => (log_app (fst x) (fst (f a)), snd (f a))
  end.

Notation "x <- a ;; b" := (run_bind a (fun x => b))
  (at level 61, a at next level, right associativity).
Notation "a ;;; b" := (run_bind a (fun _ => b))
  (at level 61, right associativity).

(** [with open(path, 'r', encoding='utf-8') as f: content = f.read()]. *)
Definition open_read (sys : os) (path : Py.str) : run Py.str :=
  (([Reads path], []), read_text sys path).

(** [with open(path, 'w', encoding='utf-8') as f: f.write(content)]. *)
Definition open_write (sys : os) (path content : Py.str) : run unit :=
  (([Writes path content], []),
   match write_text sys path content with
   | Some e => inl e
   | None => inr tt
   end).

(** [print(line)]. *)
Definition print (sys : os) (line : output_line) : run unit :=
  match print_fault sys line with
  | Some e => (([Prints line], []), inl e)
  | None => (([Prints line], [line]), inr tt)
  end.

(** A call of [fix_transcript] inside the [try] block. *)
Definition call (r : option Py.str) : run Py.str :=
  (([], []),
   match r with
   | Some s => inr s
   | None => inl TemplateError
   end).

(** [output_file if output_file else input_file]. *)
Definition output_path (input_file : Py.str) (output_file : option Py.str)
  : Py.str :=
  match output_file with
  | Some o => if Py.truthy_str output_file then o else input_file
  | None => input_file
  end.

(** The body of the [try] statement. *)
Definition try_block (sys : os) (input_file : Py.str)
  (output_file : option Py.str) (fix_mapping : Py.dict) : run unit :=
  content <- open_read sys input_file ;;
  fixed_content <- call (fix_transcript content fix_mapping) ;;
  open_write sys (output_path input_file output_file) fixed_content ;;;
  print sys (Successfully_processed input_file) ;;;
  match output_file with
  | Some o =>
      if Py.truthy_str output_file then print sys (Output_written_to o)
      else ret tt
  | None => ret tt
  end.

(** The line the handler of [e] prints. *)
Definition diagnostic (input_file : Py.str) (e : exception) : output_line :=
  match e with
  | FileNotFoundError _ => Could_not_find_file input_file
  | _ => Error_processing_file e
  end.

(** The two [except] clauses: print the diagnostic, then [sys.exit(1)]. *)
Definition handle (sys : os) (input_file : Py.str) (e : exception)
  : log * termination :=
  let p := print sys (diagnostic input_file e) in
  (fst p,
   match snd p with
   | inr _ => SysExit 1
   | inl e' => Uncaught e'
   end).

(** [process_file] with the calls it makes. *)
Definition process_file_run (sys : os) (input_file : Py.str)
  (output_file : option Py.str) (mapping : option Py.dict)
  : log * termination :=
  let fix_mapping := create_fix_mapping mapping in
  let t := try_block sys input_file output_file fix_mapping in
  match snd t with
  | inr _ => (fst t, Returned)
  | inl e =>
      let h := handle sys input_file e in
      (log_app (fst t) (fst h), snd h)
  end.

(** [process_file]: the lines it printed and how it ended. *)
Definition process_file (sys : os) (input_file : Py.str)
  (output_file : option Py.str) (mapping : option Py.dict)
  : list output_line * termination :=
  let r := process_file_run sys input_file output_file mapping in
  (snd (fst r), snd r).

(** [main], after the arguments are parsed, with the calls it makes. *)
Definition main_run (sys : os) (input_file : Py.str)
  (output : option Py.str) : log * termination :=
  process_file_run sys input_file output None.

(** [main]: the lines it printed and how it ended. *)
Definition main (sys : os) (input_file : Py.str) (output : option Py.str)
  : list output_line * termination :=
  process_file sys input_file output None.

(** The files a run opened for writing, with the text written. *)
Definition writes_of (l : log) : list (Py.str * Py.str) :=
  flat_map (fun ev => match ev with
                      | Writes path content => [(path, content)]
                      | _ => []
                      end) (fst l).

End Program.

(** ** Definitions used to state the properties *)

(** A Unicode table with no alphanumeric code point outside ASCII, for
    concrete runs on ASCII texts. *)
Definition ascii_table : Re.unicodedata :=
  {| Re.isalnum_nonascii := fun _ => false |}.

(** ASCII whitespace ([string.whitespace]): tab, newline, vertical tab,
    form feed, carriage return, space. *)
Definition is_whitespace (c : N) : bool :=
  (9 <=? c) && (c <=? 13) || (c =? 32).

Definition contains_whitespace (s : Py.str) : bool :=
  existsb is_whitespace s.

Section Specification.
Context {U : Re.unicodedata}.

(** [re.sub] with the pattern of [fix_rule], stated on whole-word
    occurrences rather than on the compiled pattern. *)
Definition sub_whole_word (w repl s : Py.str) : option Py.str :=
  match Re.parse_template Re.InText repl with
  | None => None
  | Some t =>
      Some (Py.scan (Re.whole_word w) (List.length w) (Re.expand t w) None s 0)
  end.

Definition fix_rule_whole_word (fixed_content wrong correct : Py.str)
  : option Py.str :=
  if Py.contains_char 32 wrong then
    Some (Py.replace fixed_content wrong correct)
  else sub_whole_word wrong correct fixed_content.

Fixpoint fix_transcript_whole_word (content : Py.str) (mapping : Py.dict)
  : option Py.str :=
  match mapping with
  | [] => Some content
  | (wrong, correct) :: rest =>
      match fix_rule_whole_word content wrong correct with
      | Some fixed_content => fix_transcript_whole_word fixed_content rest
      | None => None
      end
  end.

(** Does the rule with key [wrong] have a match in [text]: a literal
    occurrence for a key with a space, a whole-word occurrence otherwise. *)
Definition rule_matches (wrong text : Py.str) : bool :=
  if Py.contains_char 32 wrong then Py.find wrong text
  else Py.occurs (Re.whole_word wrong) None text.

(** No "correct" value of a rule is matched by the key of another rule. *)
Definition disjoint_rules (m : Py.dict) : bool :=
  forallb (fun r =>
    forallb (fun r' =>
      Py.eqb (fst r') (fst r) || negb (rule_matches (fst r') (snd r))) m) m.

(** [new] inserted at every word boundary of [s], where [prev] precedes
    [s]. *)
Fixpoint insert_at_boundaries (new : Py.str) (prev : option N) (s : Py.str)
  : Py.str :=
  match s with
  | [] => if Re.at_boundary prev None then new else []
  | c :: s' =>
      (if Re.at_boundary prev (Some c) then new else [])
      ++ c :: insert_at_boundaries new (Some c) s'
  end.

End Specification.

(** An operating system where every read yields [content] and every
    write succeeds. *)
Definition os_ok (content : Py.str) : os :=
  {| read_text := fun _ => inr content;
     write_text := fun _ _ => None;
     print_fault := fun _ => None |}.

(** An operating system where the input file holds [content] and the
    directory of the output path does not exist: opening the output file
    raises [FileNotFoundError]. *)
Definition os_no_output_directory (content : Py.str) : os :=
  {| read_text := fun _ => inr content;
     write_text := fun path _ =>
       Some (FileNotFoundError
               (Py.lit "[Errno 2] No such file or directory: '" ++ path
               ++ Py.lit "'"));
     print_fault := fun _ => None |}.

(** Does [re.sub] reject the replacement of some rule of the mapping? *)
Definition rejected_rule (r : Py.str * Py.str) : bool :=
  negb (Py.contains_char 32 (fst r)) &&
  match Re.parse_template Re.InText (snd r) with
  | None => true
  | Some _ => false
  end.

Definition has_rejected_rule (m : Py.dict) : bool :=
  existsb rejected_rule m.


(** Is [k] one of the keys [l]? *)
Definition is_key (l : list Py.str) (k : Py.str) : bool :=
  existsb (fun a => Py.eqb a k) l.

(** Sequencing of calls that may raise. *)
Definition bind {A B : Type} (x : option A) (f : A -> option B) : option B :=
  match x with
  | Some a => f a
  | None => None
  end.

(** Unfolds a run of [process_file] into the outcomes of its calls. *)
Ltac run_steps :=
  unfold process_file, process_file_run, main, main_run, try_block, handle,
    run_bind, open_read, open_write, call, print, ret, log_app, writes_of
    in *;
  cbn [fst snd app flat_map] in *.

(** ** Strings, scanning and dicts *)

Lemma eqb_eq (a b : Py.str) : Py.eqb a b = true <-> a = b.
Proof.
  revert b; induction a as [|x a IH]; intros [|y b]; simpl;
    try (split; [discriminate | discriminate]); try tauto.
  rewrite andb_true_iff, N.eqb_eq, IH.
  split; [intros [-> ->]; reflexivity | intros H; injection H; auto].
Qed.

Lemma eqb_refl (a : Py.str) : Py.eqb a a = true.
Proof. apply eqb_eq; reflexivity. Qed.

Lemma eqb_neq (a b : Py.str) : Py.eqb a b = false <-> a <> b.
Proof.
  rewrite <- eqb_eq. destruct (Py.eqb a b); split; congruence.
Qed.

Lemma startswith_nil (s : Py.str) : Py.startswith s [] = true.
Proof. destruct s; reflexivity. Qed.

Lemma startswith_app (p s : Py.str) : Py.startswith (p ++ s) p = true.
Proof.
  induction p as [|x p IH]; simpl; [apply startswith_nil|].
  rewrite N.eqb_refl; exact IH.
Qed.

Section ScanFacts.
Variable matches : option N -> Py.str -> bool.
Variable width : nat.
Variable new : Py.str.

(** A text with no match is left as it is. *)
Lemma scan_no_match (s : Py.str) :
  forall prev, Py.occurs matches prev s = false ->
               Py.scan matches width new prev s 0 = s.
Proof.
  induction s as [|c s IH]; intros prev H; simpl in *.
  - rewrite orb_false_r in H. rewrite H. reflexivity.
  - apply orb_false_iff in H as [H1 H2]. rewrite H1, IH; auto.
Qed.

(** The characters of a match are passed over. *)
Lemma scan_skip (m s : Py.str) :
  forall prev, Py.scan matches width new prev (m ++ s) (List.length m)
               = Py.scan matches width new (Py.last_before prev m) s 0.
Proof.
  induction m as [|c m IH]; intros prev; simpl.
  - destruct s; reflexivity.
  - apply IH.
Qed.

End ScanFacts.

Lemma scan_ext (m1 m2 : option N -> Py.str -> bool) (width : nat)
  (new : Py.str) :
  (forall prev s, m1 prev s = m2 prev s) ->
  forall s prev skip,
    Py.scan m1 width new prev s skip = Py.scan m2 width new prev s skip.
Proof.
  intros E; induction s as [|c s IH]; intros prev skip; simpl.
  - rewrite E; reflexivity.
  - destruct skip; [|apply IH].
    rewrite E. destruct (m2 prev (c :: s)); destruct width; rewrite ?IH;
      reflexivity.
Qed.

Lemma occurs_ext (m1 m2 : option N -> Py.str -> bool) :
  (forall prev s, m1 prev s = m2 prev s) ->
  forall s prev, Py.occurs m1 prev s = Py.occurs m2 prev s.
Proof.
  intros E; induction s as [|c s IH]; intros prev; simpl; rewrite E;
    [reflexivity | rewrite IH; reflexivity].
Qed.

(** [str.replace] by its three equations, for a non-empty [old]. *)
Lemma replace_nil (old new : Py.str) :
  old <> [] -> Py.replace [] old new = [].
Proof. destruct old; [congruence | reflexivity]. Qed.

Lemma replace_match (old new s : Py.str) :
  old <> [] -> Py.replace (old ++ s) old new = new ++ Py.replace s old new.
Proof.
  intros H. destruct old as [|c old]; [congruence|].
  unfold Py.replace. simpl. rewrite N.eqb_refl, startswith_app. simpl.
  f_equal. rewrite scan_skip.
  apply eq_trans with
    (Py.scan (fun _ t => Py.startswith t (c :: old)) (S (List.length old)) new
       None s 0); [|reflexivity].
  destruct s as [|d s]; simpl; [reflexivity|].
  destruct ((c =? d) && Py.startswith s old); reflexivity.
Qed.

Lemma replace_no_match (old new : Py.str) (c : N) (s : Py.str) :
  Py.startswith (c :: s) old = false ->
  Py.replace (c :: s) old new = c :: Py.replace s old new.
Proof.
  intros H. unfold Py.replace. cbn [Py.scan]. rewrite H. f_equal.
  destruct s as [|d s]; [reflexivity|]. cbn [Py.scan]. reflexivity.
Qed.

(** ** The pattern of [fix_rule] matches whole words *)

Section PatternFacts.
Context {U : Re.unicodedata}.

Lemma match_at_literals (w : Py.str) (p : Re.pattern) :
  forall prev s,
    Re.match_at (Re.escape w ++ p) prev s
    = Py.startswith s w
      && Re.match_at p (Py.last_before prev w) (skipn (List.length w) s).
Proof.
  induction w as [|c w IH]; intros prev s; simpl.
  - rewrite startswith_nil. reflexivity.
  - destruct s as [|d s]; [reflexivity|]. simpl.
    destruct (c =? d) eqn:E; simpl; [|reflexivity].
    apply N.eqb_eq in E; subst d. apply IH.
Qed.

Lemma match_at_word_pattern (w : Py.str) (prev : option N) (s : Py.str) :
  Re.match_at (Re.AtBoundary :: Re.escape w ++ [Re.AtBoundary]) prev s
  = Re.whole_word w prev s.
Proof.
  unfold Re.whole_word. cbn [Re.match_at].
  rewrite match_at_literals. cbn [Re.match_at].
  rewrite andb_true_r.
  destruct (Re.at_boundary prev (Py.head s)), (Py.startswith s w);
    reflexivity.
Qed.

Lemma matched_text_literals (w : Py.str) (p : Re.pattern) :
  Re.matched_text (Re.escape w ++ p) = w ++ Re.matched_text p.
Proof. induction w as [|c w IH]; simpl; [|rewrite IH]; reflexivity. Qed.

Lemma matched_text_word_pattern (w : Py.str) :
  Re.matched_text (Re.AtBoundary :: Re.escape w ++ [Re.AtBoundary]) = w.
Proof.
  cbn [Re.matched_text]. rewrite matched_text_literals. simpl.
  apply app_nil_r.
Qed.

Lemma sub_word_pattern (w repl s : Py.str) :
  Re.sub (Re.AtBoundary :: Re.escape w ++ [Re.AtBoundary]) repl s
  = sub_whole_word w repl s.
Proof.
  unfold Re.sub, sub_whole_word.
  destruct (Re.parse_template Re.InText repl) as [t|]; [|reflexivity].
  cbv zeta. rewrite matched_text_word_pattern. f_equal.
  apply scan_ext. intros; apply match_at_word_pattern.
Qed.

Lemma fix_rule_whole_word_eq (content wrong correct : Py.str) :
  fix_rule content wrong correct = fix_rule_whole_word content wrong correct.
Proof.
  unfold fix_rule, fix_rule_whole_word.
  destruct (Py.contains_char 32 wrong); [reflexivity|].
  apply sub_word_pattern.
Qed.

Lemma fix_transcript_whole_word_eq (mapping : Py.dict) :
  forall content,
    fix_transcript content mapping = fix_transcript_whole_word content mapping.
Proof.
  induction mapping as [|[wrong correct] rest IH]; intros content; simpl;
    [reflexivity|].
  rewrite fix_rule_whole_word_eq.
  destruct (fix_rule_whole_word content wrong correct); auto.
Qed.

(** Rules are applied one after the other, each to the result of the one
    before. *)
Lemma fix_transcript_app (m1 m2 : Py.dict) :
  forall content,
    fix_transcript content (m1 ++ m2)
    = bind (fix_transcript content m1) (fun t => fix_transcript t m2).
Proof.
  induction m1 as [|[wrong correct] m1 IH]; intros content; simpl;
    [reflexivity|].
  destruct (fix_rule content wrong correct); [apply IH | reflexivity].
Qed.

(** A rule with no match leaves the text as it is, provided its
    replacement is accepted. *)
Lemma fix_rule_no_match (text wrong correct : Py.str) :
  rule_matches wrong text = false ->
  (Py.contains_char 32 wrong = false ->
   Re.parse_template Re.InText correct <> None) ->
  fix_rule text wrong correct = Some text.
Proof.
  unfold rule_matches. intros H P. rewrite fix_rule_whole_word_eq.
  unfold fix_rule_whole_word, sub_whole_word, Py.replace, Py.find in *.
  destruct (Py.contains_char 32 wrong).
  - rewrite scan_no_match; auto.
  - destruct (Re.parse_template Re.InText correct);
      [|exfalso; apply P; reflexivity].
    rewrite scan_no_match; auto.
Qed.

Lemma fix_transcript_templates (m : Py.dict) :
  forall content result,
    fix_transcript content m = Some result ->
    forall wrong correct,
      In (wrong, correct) m ->
      Py.contains_char 32 wrong = false ->
      Re.parse_template Re.InText correct <> None.
Proof.
  induction m as [|[w c] m IH]; intros content result H wrong correct I S;
    simpl in *; [contradiction|].
  destruct (fix_rule content w c) as [t|] eqn:E; [|discriminate].
  destruct I as [I|I]; [|eapply IH; eauto].
  injection I as -> ->. unfold fix_rule, Re.sub in E. rewrite S in E.
  destruct (Re.parse_template Re.InText correct); congruence.
Qed.

Lemma fix_transcript_fixed (m : Py.dict) (text : Py.str) :
  (forall wrong correct,
     In (wrong, correct) m -> fix_rule text wrong correct = Some text) ->
  fix_transcript text m = Some text.
Proof.
  induction m as [|[w c] m IH]; intros H; simpl; [reflexivity|].
  rewrite H by (left; reflexivity). apply IH.
  intros; apply H; right; assumption.
Qed.

(** The pattern of the empty key, [\b\b], matches at the word boundaries. *)
Lemma scan_empty_key (new s : Py.str) :
  forall prev,
    Py.scan (Re.match_at (Re.AtBoundary :: Re.escape [] ++ [Re.AtBoundary]))
      0 new prev s 0
    = insert_at_boundaries new prev s.
Proof.
  induction s as [|c s IH]; intros prev; simpl.
  - rewrite andb_true_r, andb_diag. reflexivity.
  - rewrite andb_true_r, andb_diag, IH.
    destruct (Re.at_boundary prev (Some c)); reflexivity.
Qed.

Lemma insert_at_boundaries_length (new s : Py.str) :
  forall prev,
    (List.length s <= List.length (insert_at_boundaries new prev s))%nat.
Proof.
  induction s as [|c s IH]; intros prev; simpl; [lia|].
  rewrite length_app. simpl. specialize (IH (Some c)). lia.
Qed.

(** The insertion changes every text that holds a word character, unless
    the replacement is empty. *)
Lemma insert_at_boundaries_changes (new s : Py.str) :
  new <> [] ->
  existsb Re.is_word s = true ->
  insert_at_boundaries new None s <> s.
Proof.
  intros N E H.
  assert (L : forall prev,
             Re.is_word_opt prev = false ->
             (List.length s
              < List.length (insert_at_boundaries new prev s))%nat).
  { clear H. induction s as [|c s IH]; intros prev P; simpl in *;
      [discriminate|].
    unfold Re.at_boundary. rewrite P. simpl.
    destruct (Re.is_word c) eqn:W; simpl in *.
    - rewrite length_app. simpl.
      pose proof (insert_at_boundaries_length new s (Some c)).
      destruct new; [congruence | simpl; lia].
    - specialize (IH E (Some c) W). lia. }
  specialize (L None eq_refl). rewrite H in L. lia.
Qed.

End PatternFacts.

(** A replacement without a backslash is its own template. *)
Lemma parse_template_no_backslash (s : Py.str) :
  Py.contains_char 92 s = false ->
  Re.parse_template Re.InText s = Some (map Re.TLiteral s).
Proof.
  unfold Py.contains_char.
  induction s as [|c s IH]; intros H; [reflexivity|].
  cbn [existsb] in H. apply orb_false_iff in H as [H1 H2].
  cbn [Re.parse_template]. rewrite N.eqb_sym, H1. cbn [negb].
  rewrite IH by assumption. reflexivity.
Qed.

Lemma expand_literals (s m : Py.str) :
  Re.expand (map Re.TLiteral s) m = s.
Proof.
  unfold Re.expand. induction s as [|c s IH]; simpl; [|rewrite IH];
    reflexivity.
Qed.

Section EmptyKey.
Context {U : Re.unicodedata}.

Lemma insert_at_boundaries_nil (s : Py.str) :
  forall prev, insert_at_boundaries [] prev s = s.
Proof.
  induction s as [|c s IH]; intros prev; simpl.
  - destruct (Re.at_boundary prev None); reflexivity.
  - rewrite IH. destruct (Re.at_boundary prev (Some c)); reflexivity.
Qed.

Lemma insert_at_boundaries_no_word (new s : Py.str) :
  forall prev,
    Re.is_word_opt prev = false -> existsb Re.is_word s = false ->
    insert_at_boundaries new prev s = s.
Proof.
  induction s as [|c s IH]; intros prev P E; simpl in *.
  - unfold Re.at_boundary. rewrite P. reflexivity.
  - apply orb_false_iff in E as [E1 E2].
    unfold Re.at_boundary. rewrite P. simpl. rewrite E1. simpl.
    rewrite IH; auto.
Qed.

Lemma fix_rule_empty_key (content correct : Py.str) :
  Py.contains_char 92 correct = false ->
  fix_rule content [] correct
  = Some (insert_at_boundaries correct None content).
Proof.
  intros B. unfold fix_rule. cbn [Py.contains_char existsb].
  unfold Re.sub. rewrite parse_template_no_backslash by assumption.
  cbv zeta. rewrite matched_text_word_pattern, expand_literals.
  cbn [List.length]. rewrite scan_empty_key. reflexivity.
Qed.

End EmptyKey.

(** ** Dicts *)

Lemma get_setitem (d : Py.dict) (k v k' : Py.str) :
  Py.get (Py.setitem d k v) k'
  = if Py.eqb k k' then Some v else Py.get d k'.
Proof.
  induction d as [|[a b] d IH]; simpl.
  - reflexivity.
  - destruct (Py.eqb a k) eqn:E; simpl.
    + apply eqb_eq in E; subst a. destruct (Py.eqb k k'); reflexivity.
    + rewrite IH. destruct (Py.eqb a k') eqn:E'; [|reflexivity].
      apply eqb_eq in E'; subst a.
      destruct (Py.eqb k k') eqn:E2; [|reflexivity].
      apply eqb_eq in E2; subst k'. rewrite eqb_refl in E. discriminate.
Qed.

Lemma get_not_key (d : Py.dict) (k : Py.str) :
  ~ In k (Py.keys d) -> Py.get d k = None.
Proof.
  induction d as [|[a b] d IH]; simpl; intros H; [reflexivity|].
  destruct (Py.eqb a k) eqn:E.
  - apply eqb_eq in E. tauto.
  - apply IH. tauto.
Qed.

Lemma get_update (other : Py.dict) :
  Py.wf_dict other ->
  forall d k,
    Py.get (Py.update d other) k
    = match Py.get other k with
      | Some v => Some v
      | None => Py.get d k
      end.
Proof.
  unfold Py.wf_dict, Py.update.
  induction other as [|[a b] other IH]; intros W d k; simpl; [reflexivity|].
  inversion W as [|x l N1 N2]; subst.
  rewrite IH by assumption. rewrite get_setitem.
  destruct (Py.eqb a k) eqn:E; [|reflexivity].
  apply eqb_eq in E; subst a. rewrite get_not_key; auto.
Qed.

Lemma keys_setitem (d : Py.dict) (k v : Py.str) :
  Py.keys (Py.setitem d k v)
  = if existsb (fun a => Py.eqb a k) (Py.keys d) then Py.keys d
    else Py.keys d ++ [k].
Proof.
  induction d as [|[a b] d IH]; simpl; [reflexivity|].
  destruct (Py.eqb a k); simpl; [reflexivity|].
  unfold Py.keys in *. rewrite IH.
  destruct (existsb (fun a0 => Py.eqb a0 k) (map fst d)); reflexivity.
Qed.

Lemma wf_setitem (d : Py.dict) (k v : Py.str) :
  Py.wf_dict d -> Py.wf_dict (Py.setitem d k v).
Proof.
  unfold Py.wf_dict. rewrite keys_setitem. intros W.
  destruct (existsb (fun a => Py.eqb a k) (Py.keys d)) eqn:E; [assumption|].
  apply NoDup_app; [assumption | repeat constructor; simpl; tauto |].
  intros x I [E'|[]]. subst x.
  assert (existsb (fun a => Py.eqb a k) (Py.keys d) = true); [|congruence].
  apply existsb_exists. exists k. split; [assumption | apply eqb_refl].
Qed.

Lemma wf_update (other d : Py.dict) :
  Py.wf_dict d -> Py.wf_dict (Py.update d other).
Proof.
  unfold Py.update. revert d.
  induction other as [|[a b] other IH]; intros d W; simpl; [assumption|].
  apply IH, wf_setitem, W.
Qed.

Lemma wf_default_mapping : Py.wf_dict default_mapping.
Proof.
  unfold Py.wf_dict, default_mapping. simpl.
  repeat (constructor; [simpl; intuition discriminate|]). constructor.
Qed.

(** ** Properties of the program *)

Section Properties.
Context {U : Re.unicodedata}.

(** C1 (as amended).  The branch of a rule is chosen by the space
    character alone: wherever the rule stands in the mapping, a key that
    contains a space (U+0020) is replaced by [str.replace], a literal
    replacement of every occurrence with no look at the neighbouring
    characters, and any other key, also one with a tab or a newline, is
    replaced at its whole-word occurrences only. *)
Theorem space_key_literal_replacement
  (m1 m2 : Py.dict) (wrong correct content : Py.str) :
  fix_transcript content (m1 ++ (wrong, correct) :: m2)
  = bind (fix_transcript content m1) (fun t =>
      bind (if Py.contains_char 32 wrong
            then Some (Py.replace t wrong correct)
            else sub_whole_word wrong correct t)
           (fun t' => fix_transcript t' m2)).
Proof.
  rewrite fix_transcript_app.
  destruct (fix_transcript content m1) as [t|]; [|reflexivity].
  cbn [bind fix_transcript]. rewrite fix_rule_whole_word_eq.
  unfold fix_rule_whole_word.
  destruct (Py.contains_char 32 wrong); reflexivity.
Qed.

(** C2.  With the default mapping the text of the end-to-end scenario is
    corrected to the expected text. *)
Theorem default_mapping_end_to_end :
  fix_transcript
    (Py.lit "noose released Dali and OMO2 today. Swyggs interviewed Grenenfeld.")
    (create_fix_mapping None)
  = Some (Py.lit "Nous released DALL" ++ [183]
          ++ Py.lit "E and OLMo 2 today. Swyx interviewed Groeneveld.").
Proof.
  rewrite fix_transcript_whole_word_eq. vm_compute. reflexivity.
Qed.

(** C3 (as amended).  A second pass changes nothing when no rule of the
    mapping has a match in the result of the first pass. *)
Theorem second_pass_without_match
  (content result : Py.str) (mapping : Py.dict) :
  fix_transcript content mapping = Some result ->
  (forall wrong correct,
     In (wrong, correct) mapping -> rule_matches wrong result = false) ->
  fix_transcript result mapping = Some result.
Proof.
  intros H N. apply fix_transcript_fixed. intros wrong correct I.
  apply fix_rule_no_match; [eapply N; eauto|].
  eapply fix_transcript_templates; eauto.
Qed.

(** C4.  A key without a space is replaced as a whole word only: ["Lama"]
    inside ["Lama2"] stays, ["Lama"] on its own becomes ["Llama"]. *)
Theorem word_boundary_precision :
  fix_transcript (Py.lit "Lama2 is great") [(Py.lit "Lama", Py.lit "Llama")]
  = Some (Py.lit "Lama2 is great")
  /\ fix_transcript (Py.lit "Lama is great") [(Py.lit "Lama", Py.lit "Llama")]
     = Some (Py.lit "Llama is great").
Proof. split; vm_compute; reflexivity. Qed.

(** C5 (as amended).  A phrase key is replaced inside a larger word: the
    occurrence of ["Kyle Lowe"] in ["Kyle Lowexpert"] is replaced and the
    result is ["The Kyle Loxpert spoke"]. *)
Theorem phrase_substring_replacement :
  fix_transcript (Py.lit "The Kyle Lowexpert spoke")
                 [(Py.lit "Kyle Lowe", Py.lit "Kyle Lo")]
  = Some (Py.lit "The Kyle Loxpert spoke").
Proof. vm_compute. reflexivity. Qed.

(** C6.  [create_fix_mapping] with an override: every key of the override
    has the override's value, every other key has its default value, and
    the result is a well-formed dict. *)
Theorem create_fix_mapping_override (custom_mapping : Py.dict) :
  Py.wf_dict custom_mapping ->
  (forall k v,
     Py.get custom_mapping k = Some v ->
     Py.get (create_fix_mapping (Some custom_mapping)) k = Some v)
  /\ (forall k,
        Py.get custom_mapping k = None ->
        Py.get (create_fix_mapping (Some custom_mapping)) k
        = Py.get default_mapping k)
  /\ Py.wf_dict (create_fix_mapping (Some custom_mapping)).
Proof.
  intros W. unfold create_fix_mapping.
  destruct custom_mapping as [|r custom_mapping].
  - simpl. repeat split; [discriminate | apply wf_default_mapping].
  - cbn [Py.truthy_dict]. repeat split.
    + intros k v H. rewrite get_update, H by assumption. reflexivity.
    + intros k H. rewrite get_update, H by assumption. reflexivity.
    + apply wf_update, wf_default_mapping.
Qed.

(** C7.  Rules are applied in the order of the mapping, each to the result
    of the one before: a mapping split in two is applied as its first part
    followed by its second part. *)
Theorem fix_transcript_sequential
  (content : Py.str) (m1 m2 : Py.dict) :
  fix_transcript content (m1 ++ m2)
  = bind (fix_transcript content m1) (fun t => fix_transcript t m2).
Proof. apply fix_transcript_app. Qed.

(** C8 (the code at the failing input).  A "correct" value that ends in a
    backslash makes [re.sub] raise, whatever the text; in [process_file]
    the exception reaches the handler although both file accesses
    succeed. *)
Theorem backslash_in_correct_raises :
  fix_transcript (Py.lit "a") [(Py.lit "a", [92])] = None
  /\ fix_transcript [] [(Py.lit "a", [92])] = None
  /\ process_file (os_ok (Py.lit "a")) (Py.lit "input.md") None
       (Some [(Py.lit "a", [92])])
     = ([Error_processing_file TemplateError], SysExit 1).
Proof. repeat split; vm_compute; reflexivity. Qed.

(** C9 (the code at the failing input).  When the input file is read and
    opening the output file raises [FileNotFoundError], the program
    reports the input file as missing and does not print the error's
    description. *)
Theorem missing_output_directory_reported_as_input :
  process_file (os_no_output_directory (Py.lit "noose"))
    (Py.lit "input.md") (Some (Py.lit "missing/output.md")) None
  = ([Could_not_find_file (Py.lit "input.md")], SysExit 1).
Proof. vm_compute. reflexivity. Qed.

(** C10 (as amended).  The rule with the empty key takes the
    word-boundary branch wherever it stands in the mapping: a "correct"
    value without a backslash is inserted at every word boundary of the
    text the rule receives, and this changes the text exactly when the
    value is not empty and the text holds a word character. *)
Theorem empty_key_rule (m1 m2 : Py.dict) (content correct : Py.str) :
  Py.contains_char 92 correct = false ->
  fix_transcript content (m1 ++ ([], correct) :: m2)
  = bind (fix_transcript content m1) (fun t =>
      fix_transcript (insert_at_boundaries correct None t) m2)
  /\ (forall t,
        insert_at_boundaries correct None t <> t
        <-> correct <> [] /\ existsb Re.is_word t = true).
Proof.
  intros B. split.
  - rewrite fix_transcript_app.
    destruct (fix_transcript content m1) as [t|]; [|reflexivity].
    cbn [bind fix_transcript]. rewrite fix_rule_empty_key by assumption.
    reflexivity.
  - intros t. split.
    + intros H. destruct correct as [|c correct].
      * exfalso. apply H, insert_at_boundaries_nil.
      * split; [discriminate|].
        destruct (existsb Re.is_word t) eqn:E; [reflexivity|].
        exfalso. apply H, insert_at_boundaries_no_word; auto.
    + intros [N E]. apply insert_at_boundaries_changes; assumption.
Qed.

End Properties.

(** ** The outcomes of [process_file] *)

Section Process.
Context {U : Re.unicodedata}.
Variable sys : os.
Variable input_file : Py.str.
Variable output_file : option Py.str.
Variable mapping : option Py.dict.

Lemma process_file_success (content fixed_content : Py.str) :
  read_text sys input_file = inr content ->
  fix_transcript content (create_fix_mapping mapping) = Some fixed_content ->
  write_text sys (output_path input_file output_file) fixed_content = None ->
  (forall line, print_fault sys line = None) ->
  exists more,
    process_file sys input_file output_file mapping
    = (Successfully_processed input_file :: more, Returned).
Proof.
  intros R F W P. run_steps. rewrite R. cbn. rewrite F. cbn.
  rewrite W. cbn. rewrite P. cbn.
  destruct output_file as [[|c o]|]; cbn; rewrite ?P; cbn;
    eexists; reflexivity.
Qed.

Lemma process_file_missing_input (description : Py.str) :
  read_text sys input_file = inl (FileNotFoundError description) ->
  print_fault sys (Could_not_find_file input_file) = None ->
  process_file sys input_file output_file mapping
  = ([Could_not_find_file input_file], SysExit 1).
Proof. intros R P. run_steps. rewrite R. cbn. rewrite P. reflexivity. Qed.

Lemma process_file_read_error (description : Py.str) :
  read_text sys input_file = inl (OtherException description) ->
  print_fault sys (Error_processing_file (OtherException description))
  = None ->
  process_file sys input_file output_file mapping
  = ([Error_processing_file (OtherException description)], SysExit 1).
Proof. intros R P. run_steps. rewrite R. cbn. rewrite P. reflexivity. Qed.

Lemma process_file_write_error (content fixed_content description : Py.str) :
  read_text sys input_file = inr content ->
  fix_transcript content (create_fix_mapping mapping) = Some fixed_content ->
  write_text sys (output_path input_file output_file) fixed_content
  = Some (OtherException description) ->
  print_fault sys (Error_processing_file (OtherException description))
  = None ->
  process_file sys input_file output_file mapping
  = ([Error_processing_file (OtherException description)], SysExit 1).
Proof.
  intros R F W P. run_steps. rewrite R. cbn. rewrite F. cbn.
  rewrite W. cbn. rewrite P. reflexivity.
Qed.

End Process.

(** [create_fix_mapping] without an override, or with an empty one, is
    the default table. *)
Lemma create_fix_mapping_default :
  create_fix_mapping None = default_mapping
  /\ create_fix_mapping (Some []) = default_mapping.
Proof. split; reflexivity. Qed.

(** ** Concrete runs *)

(** C1, counterexample.  The key ["a\tb"] contains whitespace and no
    space: in ["xa\tb"] it occurs inside a word, a literal replacement
    would give ["xZ"], and [fix_transcript] leaves the text as it is. *)
Lemma tab_key_counterexample :
  contains_whitespace (Py.lit "a" ++ [9] ++ Py.lit "b") = true
  /\ Py.replace (Py.lit "xa" ++ [9] ++ Py.lit "b")
       (Py.lit "a" ++ [9] ++ Py.lit "b") (Py.lit "Z") = Py.lit "xZ"
  /\ fix_transcript (U := ascii_table) (Py.lit "xa" ++ [9] ++ Py.lit "b")
       [(Py.lit "a" ++ [9] ++ Py.lit "b", Py.lit "Z")]
     <> Some (Py.replace (Py.lit "xa" ++ [9] ++ Py.lit "b")
                (Py.lit "a" ++ [9] ++ Py.lit "b") (Py.lit "Z")).
Proof.
  split; [reflexivity|]. split; [reflexivity|].
  vm_compute. discriminate.
Qed.

(** C3, counterexample.  The single rule ["a b" -> "a"] has a "correct"
    value that no key matches, yet the second pass over ["a b b"] changes
    the text again: the replacement and the text after it form a new
    occurrence. *)
Lemma second_pass_counterexample :
  disjoint_rules (U := ascii_table) [(Py.lit "a b", Py.lit "a")] = true
  /\ rule_matches (U := ascii_table) (Py.lit "a b") (Py.lit "a") = false
  /\ fix_transcript (U := ascii_table) (Py.lit "a b b")
       [(Py.lit "a b", Py.lit "a")] = Some (Py.lit "a b")
  /\ fix_transcript (U := ascii_table) (Py.lit "a b")
       [(Py.lit "a b", Py.lit "a")] <> Some (Py.lit "a b").
Proof.
  repeat split; try (vm_compute; reflexivity).
  vm_compute. discriminate.
Qed.

Lemma second_pass_without_match_witness :
  fix_transcript (U := ascii_table) (Py.lit "Lama is great")
    [(Py.lit "Lama", Py.lit "Llama")] = Some (Py.lit "Llama is great")
  /\ fix_transcript (U := ascii_table) (Py.lit "Llama is great")
       [(Py.lit "Lama", Py.lit "Llama")] = Some (Py.lit "Llama is great").
Proof.
  split; [vm_compute; reflexivity|].
  apply (second_pass_without_match (U := ascii_table)
           (Py.lit "Lama is great")).
  - vm_compute; reflexivity.
  - intros wrong correct [E|[]]. injection E as <- <-.
    vm_compute; reflexivity.
Defined.

(** C5, counterexample.  The result is not ["The Kyle Loexpert spoke"]:
    the ["e"] that ends the key is replaced together with it. *)
Lemma phrase_substring_counterexample :
  fix_transcript (U := ascii_table) (Py.lit "The Kyle Lowexpert spoke")
    [(Py.lit "Kyle Lowe", Py.lit "Kyle Lo")]
  <> Some (Py.lit "The Kyle Loexpert spoke").
Proof. vm_compute. discriminate. Qed.

Lemma create_fix_mapping_override_witness :
  Py.wf_dict [(Py.lit "Lama", Py.lit "Nova")]
  /\ Py.get (create_fix_mapping (Some [(Py.lit "Lama", Py.lit "Nova")]))
       (Py.lit "Lama") = Some (Py.lit "Nova")
  /\ Py.get (create_fix_mapping (Some [(Py.lit "Lama", Py.lit "Nova")]))
       (Py.lit "noose") = Some (Py.lit "Nous").
Proof.
  assert (W : Py.wf_dict [(Py.lit "Lama", Py.lit "Nova")]).
  { repeat constructor. simpl. tauto. }
  split; [exact W|].
  destruct (create_fix_mapping_override _ W) as (H1 & H2 & _).
  split.
  - apply H1. reflexivity.
  - rewrite H2; reflexivity.
Defined.

(** C10, counterexample.  Each mapping holds a rule with the empty key.
    The text ["--"] has no word boundary and the empty value inserts
    nothing: both texts come back unchanged.  The value backslash-n is
    read as a template: a newline is inserted, not the value. *)
Lemma empty_key_counterexample :
  fix_transcript (U := ascii_table) (Py.lit "--") [([], Py.lit "X")]
  = Some (Py.lit "--")
  /\ fix_transcript (U := ascii_table) (Py.lit "ab") [([], [])]
     = Some (Py.lit "ab")
  /\ fix_transcript (U := ascii_table) (Py.lit "ab") [([], [92; 110])]
     = Some ([10] ++ Py.lit "ab" ++ [10]).
Proof. repeat split; vm_compute; reflexivity. Qed.

Lemma empty_key_rule_witness :
  Py.contains_char 92 (Py.lit "X") = false
  /\ fix_transcript (U := ascii_table) (Py.lit "ab") [([], Py.lit "X")]
     = Some (Py.lit "XabX").
Proof.
  split; [reflexivity|].
  exact (proj1 (empty_key_rule (U := ascii_table) [] [] (Py.lit "ab")
                  (Py.lit "X") eq_refl)).
Defined.

(** ** When [fix_transcript] raises *)

Lemma rejected_rule_no_backslash (wrong correct : Py.str) :
  Py.contains_char 92 correct = false ->
  rejected_rule (wrong, correct) = false.
Proof.
  intros H. unfold rejected_rule. cbn [fst snd].
  rewrite parse_template_no_backslash by assumption.
  apply andb_false_r.
Qed.

Section Raising.
Context {U : Re.unicodedata}.

Lemma fix_rule_raises_iff (content wrong correct : Py.str) :
  fix_rule content wrong correct = None
  <-> rejected_rule (wrong, correct) = true.
Proof.
  unfold fix_rule, rejected_rule, Re.sub. cbn [fst snd].
  destruct (Py.contains_char 32 wrong); cbn [negb andb].
  - split; discriminate.
  - destruct (Re.parse_template Re.InText correct); split;
      (discriminate || reflexivity).
Qed.

Lemma fix_transcript_none_iff (content : Py.str) (mapping : Py.dict) :
  fix_transcript content mapping = None
  <-> has_rejected_rule mapping = true.
Proof.
  unfold has_rejected_rule. revert content.
  induction mapping as [|[wrong correct] rest IH]; intros content; simpl.
  - split; discriminate.
  - rewrite orb_true_iff, <- (fix_rule_raises_iff content wrong correct).
    destruct (fix_rule content wrong correct) as [t|].
    + rewrite IH. split; [auto | intros [H|H]; [discriminate | exact H]].
    + split; auto.
Qed.

(** X1.  Whether [fix_transcript] raises is decided by the mapping alone:
    it raises exactly when some rule whose key has no space carries a
    replacement that [re.sub] rejects, whatever the text and wherever the
    rule stands. *)
Theorem fix_transcript_raises_iff (content : Py.str) (mapping : Py.dict) :
  fix_transcript content mapping = None
  <-> has_rejected_rule mapping = true.
Proof. apply fix_transcript_none_iff. Qed.

(** X2.  The empty text stays empty under every mapping that does not
    raise. *)
Theorem fix_transcript_empty_text (mapping : Py.dict) :
  fix_transcript [] mapping
  = if has_rejected_rule mapping then None else Some [].
Proof.
  destruct (has_rejected_rule mapping) eqn:R.
  - apply fix_transcript_none_iff; exact R.
  - apply fix_transcript_fixed. intros wrong correct I.
    assert (N : rejected_rule (wrong, correct) = false).
    { unfold has_rejected_rule in R.
      destruct (rejected_rule (wrong, correct)) eqn:E; [|reflexivity].
      rewrite <- R. symmetry. apply existsb_exists. eauto. }
    unfold rejected_rule in N. cbn [fst snd] in N.
    unfold fix_rule, Re.sub, Py.replace.
    destruct (Py.contains_char 32 wrong) eqn:S.
    + destruct wrong; [discriminate | reflexivity].
    + destruct (Re.parse_template Re.InText correct); [|discriminate].
      reflexivity.
Qed.

Lemma fix_rule_verbatim (content wrong correct : Py.str) :
  Py.contains_char 32 wrong = false ->
  Py.contains_char 92 correct = false ->
  fix_rule content wrong correct
  = Some (Py.scan (Re.whole_word wrong) (List.length wrong) correct
            None content 0).
Proof.
  intros S B. rewrite fix_rule_whole_word_eq.
  unfold fix_rule_whole_word, sub_whole_word. rewrite S.
  rewrite parse_template_no_backslash, expand_literals by assumption.
  reflexivity.
Qed.

(** X3.  A rule whose key has no space and whose "correct" value has no
    backslash inserts that value as it is, at the whole-word occurrences
    of the key. *)
Theorem word_rule_inserts_correct_verbatim
  (content wrong correct : Py.str) :
  Py.contains_char 32 wrong = false ->
  Py.contains_char 92 correct = false ->
  fix_rule content wrong correct
  = Some (Py.scan (Re.whole_word wrong) (List.length wrong) correct
            None content 0).
Proof. apply fix_rule_verbatim. Qed.

End Raising.

(** ** The merged mapping *)

Lemma is_key_app (l : list Py.str) (k x : Py.str) :
  is_key (l ++ [k]) x = is_key l x || Py.eqb k x.
Proof.
  unfold is_key. rewrite existsb_app. simpl. rewrite orb_false_r.
  reflexivity.
Qed.

Lemma keys_update (other : Py.dict) :
  Py.wf_dict other ->
  forall d,
    Py.keys (Py.update d other)
    = Py.keys d
      ++ filter (fun k => negb (is_key (Py.keys d) k)) (Py.keys other).
Proof.
  unfold Py.wf_dict, Py.update.
  induction other as [|[k v] other IH]; intros W d; simpl.
  - symmetry; apply app_nil_r.
  - inversion W as [|x l N1 N2]; subst.
    rewrite IH by assumption. rewrite keys_setitem.
    fold (is_key (Py.keys d) k).
    destruct (is_key (Py.keys d) k) eqn:E; simpl; [reflexivity|].
    rewrite <- app_assoc. simpl. do 2 f_equal.
    apply filter_ext_in. intros x I. rewrite is_key_app.
    destruct (Py.eqb k x) eqn:E'; [|rewrite orb_false_r; reflexivity].
    apply eqb_eq in E'; subst x. contradiction.
Qed.

(** X4.  The merged mapping keeps the default rules in their order, an
    overridden rule in its default place, and appends the new keys of the
    override in the override's order. *)
Theorem create_fix_mapping_order (custom_mapping : Py.dict) :
  Py.wf_dict custom_mapping ->
  Py.keys (create_fix_mapping (Some custom_mapping))
  = Py.keys default_mapping
    ++ filter (fun k => negb (is_key (Py.keys default_mapping) k))
         (Py.keys custom_mapping).
Proof.
  intros W. unfold create_fix_mapping.
  destruct custom_mapping as [|r rest].
  - simpl Py.truthy_dict. cbv iota. symmetry; apply app_nil_r.
  - cbn [Py.truthy_dict]. apply keys_update, W.
Qed.

Lemma in_setitem (d : Py.dict) (k v : Py.str) (r : Py.str * Py.str) :
  In r (Py.setitem d k v) -> In r d \/ snd r = v.
Proof.
  induction d as [|[a b] d IH]; simpl.
  - intros [<-|[]]. right; reflexivity.
  - destruct (Py.eqb a k); simpl.
    + intros [<-|H]; [right; reflexivity | left; right; exact H].
    + intros [<-|H]; [left; left; reflexivity|].
      destruct (IH H); [left; right; assumption | right; assumption].
Qed.

Lemma in_update (other : Py.dict) :
  forall d r,
    In r (Py.update d other) ->
    In r d \/ exists r', In r' other /\ snd r = snd r'.
Proof.
  unfold Py.update.
  induction other as [|[k v] other IH]; intros d r H; simpl in *.
  - left; exact H.
  - destruct (IH _ _ H) as [H1|(r' & I & E)].
    + destruct (in_setitem _ _ _ _ H1) as [H2|H2]; [left; exact H2|].
      right. exists (k, v). split; [left; reflexivity | exact H2].
    + right. exists r'. split; [right; exact I | exact E].
Qed.

Lemma no_backslash_no_rejected_rule (m : Py.dict) :
  (forall r, In r m -> Py.contains_char 92 (snd r) = false) ->
  has_rejected_rule m = false.
Proof.
  intros H. unfold has_rejected_rule.
  destruct (existsb rejected_rule m) eqn:E; [|reflexivity].
  apply existsb_exists in E as ([w c] & I & R).
  rewrite rejected_rule_no_backslash in R; [discriminate|].
  apply (H _ I).
Qed.

Lemma default_mapping_no_backslash (r : Py.str * Py.str) :
  In r default_mapping -> Py.contains_char 92 (snd r) = false.
Proof.
  intros I.
  assert (F : forallb (fun r => negb (Py.contains_char 92 (snd r)))
                default_mapping = true) by reflexivity.
  rewrite forallb_forall in F. apply negb_true_iff, F, I.
Qed.

Section Merged.
Context {U : Re.unicodedata}.

(** X5.  With the default table, alone or under an override whose values
    hold no backslash, [fix_transcript] returns a text for every input
    text. *)
Theorem fix_transcript_merged_returns
  (custom_mapping : option Py.dict) (content : Py.str) :
  (forall m wrong correct,
     custom_mapping = Some m -> In (wrong, correct) m ->
     Py.contains_char 92 correct = false) ->
  exists fixed_content,
    fix_transcript content (create_fix_mapping custom_mapping)
    = Some fixed_content.
Proof.
  intros H.
  destruct (fix_transcript content (create_fix_mapping custom_mapping))
    as [t|] eqn:E; [eauto|].
  apply fix_transcript_none_iff in E.
  rewrite no_backslash_no_rejected_rule in E; [discriminate|].
  intros r I. unfold create_fix_mapping in I.
  destruct custom_mapping as [m|];
    [|apply default_mapping_no_backslash, I].
  destruct (Py.truthy_dict (Some m));
    [|apply default_mapping_no_backslash, I].
  apply in_update in I as [I|([w c] & I & ->)].
  - apply default_mapping_no_backslash, I.
  - apply (H m w c eq_refl I).
Qed.

(** X6.  A text in which no rule has a match is returned as it is: a key
    with a space does not occur in it, and any other key occurs, if at
    all, only inside larger words. *)
Theorem text_without_match_unchanged (content : Py.str) (mapping : Py.dict) :
  has_rejected_rule mapping = false ->
  (forall wrong correct,
     In (wrong, correct) mapping -> rule_matches wrong content = false) ->
  fix_transcript content mapping = Some content.
Proof.
  intros R N. apply fix_transcript_fixed. intros wrong correct I.
  apply fix_rule_no_match; [eapply N; eauto|].
  intros S P. unfold has_rejected_rule in R.
  assert (E : existsb rejected_rule mapping = true); [|congruence].
  apply existsb_exists. exists (wrong, correct). split; [exact I|].
  unfold rejected_rule. cbn [fst snd]. rewrite S, P. reflexivity.
Qed.

End Merged.

(** ** A rule that maps a key to itself *)

Lemma startswith_skipn (p : Py.str) :
  forall s, Py.startswith s p = true -> p ++ skipn (List.length p) s = s.
Proof.
  induction p as [|x p IH]; intros s H; [reflexivity|].
  destruct s as [|y s]; [discriminate|]. simpl in H.
  apply andb_true_iff in H as [E H]. apply N.eqb_eq in E; subst y.
  simpl. rewrite IH by assumption. reflexivity.
Qed.

Lemma scan_same (matches : option N -> Py.str -> bool) (m : Py.str) :
  (forall prev s, matches prev s = true -> Py.startswith s m = true) ->
  forall s prev k,
    Py.scan matches (List.length m) m prev s k = skipn k s.
Proof.
  intros M. induction s as [|c s IH]; intros prev k.
  - destruct k; [|reflexivity]. simpl.
    destruct (matches prev []) eqn:E; [|reflexivity].
    apply M in E. destruct m; [reflexivity | discriminate].
  - destruct k as [|k]; [|apply IH]. cbn [Py.scan skipn].
    destruct (matches prev (c :: s)) eqn:E; [|rewrite IH; reflexivity].
    apply M in E. destruct m as [|x m]; simpl.
    + rewrite IH; reflexivity.
    + rewrite IH. simpl in E. apply andb_true_iff in E as [E1 E2].
      apply N.eqb_eq in E1; subst x.
      rewrite startswith_skipn by assumption. reflexivity.
Qed.

Section SameValue.
Context {U : Re.unicodedata}.

(** X7.  A rule whose "correct" value is its own key changes no text, as
    long as the key has a space or no backslash: an override can switch a
    default rule off by mapping its key to itself. *)
Theorem rule_to_itself_unchanged (content wrong : Py.str) :
  Py.contains_char 32 wrong || negb (Py.contains_char 92 wrong) = true ->
  fix_rule content wrong wrong = Some content.
Proof.
  intros H. destruct (Py.contains_char 32 wrong) eqn:S.
  - unfold fix_rule. rewrite S. unfold Py.replace.
    rewrite scan_same; [reflexivity|]. intros prev s E; exact E.
  - cbn [orb] in H. apply negb_true_iff in H.
    rewrite fix_rule_verbatim by assumption.
    rewrite scan_same; [reflexivity|]. intros prev s E.
    unfold Re.whole_word in E. apply andb_true_iff in E as [E _]. exact E.
Qed.

End SameValue.

(** ** How [process_file] and [main] end *)

Section Outcomes.
Context {U : Re.unicodedata}.

Lemma main_default_returns (content : Py.str) :
  exists fixed_content,
    fix_transcript content (create_fix_mapping None) = Some fixed_content.
Proof.
  destruct (fix_transcript content (create_fix_mapping None))
    as [t|] eqn:E; [eauto|].
  apply fix_transcript_none_iff in E.
  rewrite no_backslash_no_rejected_rule in E; [discriminate|].
  intros r I. apply default_mapping_no_backslash, I.
Qed.

Lemma handle_outcomes (sys : os) (input_file : Py.str) (e : exception) :
  (snd (handle sys input_file e) = SysExit 1
   /\ snd (fst (handle sys input_file e)) = [diagnostic input_file e])
  \/ (exists e', snd (handle sys input_file e) = Uncaught e'
                 /\ snd (fst (handle sys input_file e)) = []).
Proof.
  unfold handle, print.
  destruct (print_fault sys (diagnostic input_file e)) as [e'|]; cbn;
    [right; eauto | left; auto].
Qed.

Lemma diagnostic_cases (input_file : Py.str) (e : exception) :
  diagnostic input_file e = Could_not_find_file input_file
  \/ exists e', diagnostic input_file e = Error_processing_file e'.
Proof. destruct e; simpl; eauto. Qed.

(** The run of [process_file], case by case. *)
Lemma process_file_run_eq (sys : os) (input_file : Py.str)
  (output_file : option Py.str) (mapping : option Py.dict) :
  process_file_run sys input_file output_file mapping
  = let fail (l : log) (e : exception) :=
      (log_app l (fst (handle sys input_file e)),
       snd (handle sys input_file e)) in
    let path := output_path input_file output_file in
    let ok := Successfully_processed input_file in
    match read_text sys input_file with
    | inl e => fail ([Reads input_file], []) e
    | inr content =>
        match fix_transcript content (create_fix_mapping mapping) with
        | None => fail ([Reads input_file], []) TemplateError
        | Some fixed =>
            match write_text sys path fixed with
            | Some e => fail ([Reads input_file; Writes path fixed], []) e
            | None =>
                match print_fault sys ok with
                | Some e =>
                    fail ([Reads input_file; Writes path fixed; Prints ok],
                          []) e
                | None =>
                    if Py.truthy_str output_file then
                      match print_fault sys (Output_written_to path) with
                      | Some e =>
                          fail ([Reads input_file; Writes path fixed;
                                 Prints ok; Prints (Output_written_to path)],
                                [ok]) e
                      | None =>
                          (([Reads input_file; Writes path fixed; Prints ok;
                             Prints (Output_written_to path)],
                            [ok; Output_written_to path]), Returned)
                      end
                    else
                      (([Reads input_file; Writes path fixed; Prints ok],
                        [ok]), Returned)
                end
            end
        end
    end.
Proof.
  cbv zeta. unfold process_file_run. cbv zeta.
  remember (create_fix_mapping mapping) as m.
  unfold try_block, run_bind, open_read, call, open_write, print.
  cbn [fst snd].
  destruct (read_text sys input_file) as [e|content]; [reflexivity|].
  destruct (fix_transcript content m) as [fixed|]; [|reflexivity].
  cbn [fst snd].
  destruct (write_text sys (output_path input_file output_file) fixed)
    as [e|]; [reflexivity|].
  cbn [fst snd].
  destruct (print_fault sys (Successfully_processed input_file)) as [e|];
    [reflexivity|].
  cbn [fst snd].
  destruct output_file as [[|c o]|]; cbn [Py.truthy_str]; try reflexivity.
  cbn [output_path Py.truthy_str].
  destruct (print_fault sys (Output_written_to (c :: o))) as [e|];
    reflexivity.
Qed.

(** X8.  [process_file] returns only after its success prints completed:
    the confirmation, and the output line exactly when a non-empty output
    path was given.  Otherwise an exception reached a handler: either
    the handler printed one diagnostic (the missing-file line or the
    error line), with at most the confirmation before it, and called
    [sys.exit(1)]; or the diagnostic print itself raised, and that
    exception leaves [process_file]. *)
Theorem process_file_outcomes (sys : os) (input_file : Py.str)
  (output_file : option Py.str) (mapping : option Py.dict) :
  let r := process_file sys input_file output_file mapping in
  (snd r = Returned
   /\ fst r = Successfully_processed input_file
              :: (if Py.truthy_str output_file
                  then [Output_written_to (output_path input_file output_file)]
                  else []))
  \/ (snd r = SysExit 1
      /\ exists before line,
           fst r = before ++ [line]
           /\ (before = [] \/ before = [Successfully_processed input_file])
           /\ (line = Could_not_find_file input_file
               \/ exists e, line = Error_processing_file e))
  \/ (exists e,
        snd r = Uncaught e
        /\ (fst r = [] \/ fst r = [Successfully_processed input_file])).
Proof.
  assert (H : forall (before : list output_line) e,
             before = [] \/ before = [Successfully_processed input_file] ->
             let h := handle sys input_file e in
             (snd h = SysExit 1
              /\ exists b line,
                   before ++ snd (fst h) = b ++ [line]
                   /\ (b = [] \/ b = [Successfully_processed input_file])
                   /\ (line = Could_not_find_file input_file
                       \/ exists e', line = Error_processing_file e'))
             \/ (exists e',
                   snd h = Uncaught e'
                   /\ (before ++ snd (fst h) = []
                       \/ before ++ snd (fst h)
                          = [Successfully_processed input_file]))).
  { intros before e B. cbv zeta.
    destruct (handle_outcomes sys input_file e) as [[T L]|(e' & T & L)];
      rewrite T, L.
    - left. split; [reflexivity|]. exists before, (diagnostic input_file e).
      split; [reflexivity|]. split; [exact B | apply diagnostic_cases].
    - right. exists e'. split; [reflexivity|]. rewrite app_nil_r.
      destruct B as [->| ->]; auto. }
  cbv zeta. unfold process_file. rewrite process_file_run_eq. cbv zeta.
  unfold log_app.
  destruct (read_text sys input_file) as [e|content].
  { right. apply (H [] e). auto. }
  destruct (fix_transcript content (create_fix_mapping mapping))
    as [fixed|].
  2: { right. apply (H [] TemplateError). auto. }
  destruct (write_text sys (output_path input_file output_file) fixed)
    as [e|].
  { right. apply (H [] e). auto. }
  destruct (print_fault sys (Successfully_processed input_file)) as [e|].
  { right. apply (H [] e). auto. }
  destruct (Py.truthy_str output_file); [|left; auto].
  destruct (print_fault sys
              (Output_written_to (output_path input_file output_file)))
    as [e|]; [|left; auto].
  right. apply (H [Successfully_processed input_file] e). auto.
Qed.


Lemma process_file_writes_eq (sys : os) (input_file : Py.str)
  (output_file : option Py.str) (mapping : option Py.dict) :
  writes_of (fst (process_file_run sys input_file output_file mapping))
  = match read_text sys input_file with
    | inl _ => []
    | inr content =>
        match fix_transcript content (create_fix_mapping mapping) with
        | None => []
        | Some fixed_content =>
            [(output_path input_file output_file, fixed_content)]
        end
    end.
Proof.
  assert (H : forall e, flat_map
                (fun ev => match ev with
                           | Writes path content => [(path, content)]
                           | _ => []
                           end) (fst (fst (handle sys input_file e))) = []).
  { intros e. unfold handle, print.
    destruct (print_fault sys (diagnostic input_file e)); reflexivity. }
  unfold writes_of. rewrite process_file_run_eq. cbv zeta.
  unfold log_app.
  destruct (read_text sys input_file) as [e|content].
  { cbn [fst snd app flat_map]. apply H. }
  destruct (fix_transcript content (create_fix_mapping mapping))
    as [fixed|].
  2: { cbn [fst snd app flat_map]. apply H. }
  destruct (write_text sys (output_path input_file output_file) fixed)
    as [e|].
  { cbn [fst snd app flat_map]. rewrite H. reflexivity. }
  destruct (print_fault sys (Successfully_processed input_file)) as [e|].
  { cbn [fst snd app flat_map]. rewrite H. reflexivity. }
  destruct (Py.truthy_str output_file); [|reflexivity].
  destruct (print_fault sys
              (Output_written_to (output_path input_file output_file)))
    as [e|]; [|reflexivity].
  cbn [fst snd app flat_map]. rewrite H. reflexivity.
Qed.

(** X12.  [process_file] opens at most one file for writing: the output
    path, with the fully corrected text, and only after the input was read
    and the transformation returned.  When reading or the transformation
    raises, no file is opened for writing. *)
Theorem process_file_writes (sys : os) (input_file : Py.str)
  (output_file : option Py.str) (mapping : option Py.dict) :
  writes_of (fst (process_file_run sys input_file output_file mapping))
  = match read_text sys input_file with
    | inl _ => []
    | inr content =>
        match fix_transcript content (create_fix_mapping mapping) with
        | None => []
        | Some fixed_content =>
            [(output_path input_file output_file, fixed_content)]
        end
    end.
Proof. apply process_file_writes_eq. Qed.

(** X10.  Without an output path ([None] or the empty string) [main]
    rewrites the input in place: once the input is read, the one file it
    opens for writing is the input path, and the text it writes is the
    input text corrected with the default table. *)
Theorem main_writes_input_in_place (sys : os) (input_file : Py.str)
  (output : option Py.str) (content : Py.str) :
  Py.truthy_str output = false ->
  read_text sys input_file = inr content ->
  exists fixed_content,
    fix_transcript content default_mapping = Some fixed_content
    /\ writes_of (fst (main_run sys input_file output))
       = [(input_file, fixed_content)].
Proof.
  intros T R. destruct (main_default_returns content) as [fixed_content F].
  exists fixed_content. split; [exact F|].
  unfold main_run. rewrite process_file_writes_eq, R, F.
  destruct output as [[|c o]|]; [reflexivity | discriminate | reflexivity].
Qed.


End Outcomes.

(** ** What a single rule does *)

Lemma occurs_weaken (m1 m2 : option N -> Py.str -> bool) :
  (forall p q s, m1 p s = true -> m2 q s = true) ->
  forall s p q, Py.occurs m1 p s = true -> Py.occurs m2 q s = true.
Proof.
  intros M. induction s as [|c s IH]; intros p q H; simpl in *;
    apply orb_true_iff in H as [H|H]; apply orb_true_iff.
  - left; eapply M; eauto.
  - discriminate.
  - left; eapply M; eauto.
  - right; eapply IH; eauto.
Qed.

Section SingleRule.
Context {U : Re.unicodedata}.

Lemma find_false_no_match (wrong text : Py.str) :
  Py.find wrong text = false -> rule_matches wrong text = false.
Proof.
  intros F. unfold rule_matches.
  destruct (Py.contains_char 32 wrong); [exact F|].
  destruct (Py.occurs (Re.whole_word wrong) None text) eqn:E; [|reflexivity].
  rewrite <- F. symmetry. unfold Py.find.
  apply (occurs_weaken (Re.whole_word wrong)) with (p := None);
    [|exact E].
  intros p q s H. unfold Re.whole_word in H.
  apply andb_true_iff in H as [H _]. exact H.
Qed.

(** X13.  A rule whose key does not occur in the text leaves the text as
    it is, unless [re.sub] rejects its replacement. *)
Theorem absent_key_unchanged (content wrong correct : Py.str) :
  Py.find wrong content = false ->
  rejected_rule (wrong, correct) = false ->
  fix_rule content wrong correct = Some content.
Proof.
  intros F R. apply fix_rule_no_match.
  - apply find_false_no_match, F.
  - intros S P. unfold rejected_rule in R. cbn [fst snd] in R.
    rewrite S, P in R. discriminate.
Qed.

(** X14.  A key with a space is replaced where the text starts with it,
    whatever follows: the rest of the text is then scanned on its own. *)
Theorem phrase_rule_at_start (wrong correct rest : Py.str) :
  Py.contains_char 32 wrong = true ->
  fix_rule (wrong ++ rest) wrong correct
  = Some (correct ++ Py.replace rest wrong correct).
Proof.
  intros S. unfold fix_rule. rewrite S. f_equal.
  apply replace_match. intros ->. discriminate.
Qed.

Lemma last_before_word (w : Py.str) :
  forall prev,
    w <> [] -> forallb Re.is_word w = true ->
    Re.is_word_opt (Py.last_before prev w) = true.
Proof.
  induction w as [|c w IH]; intros prev N A; [congruence|].
  simpl in A. apply andb_true_iff in A as [A1 A2]. simpl.
  destruct w as [|d w]; [exact A1|].
  apply IH; [discriminate | exact A2].
Qed.

Lemma no_match_inside_word (wrong s : Py.str) :
  wrong <> [] ->
  forall c,
    Re.is_word c = true -> forallb Re.is_word s = true ->
    Py.occurs (Re.whole_word wrong) (Some c) s = false.
Proof.
  intros N. induction s as [|d s IH]; intros c C A; simpl.
  - unfold Re.whole_word. destruct wrong; [congruence | reflexivity].
  - simpl in A. apply andb_true_iff in A as [A1 A2].
    rewrite IH by assumption. rewrite orb_false_r.
    unfold Re.whole_word, Re.at_boundary. simpl. rewrite C, A1. simpl.
    apply andb_false_r.
Qed.

Lemma forallb_skipn (f : N -> bool) (n : nat) :
  forall s, forallb f s = true -> forallb f (skipn n s) = true.
Proof.
  induction n as [|n IH]; intros [|c s] H; simpl; auto.
  simpl in H. apply andb_true_iff in H as [_ H]. auto.
Qed.

Lemma startswith_forallb (f : N -> bool) (w : Py.str) :
  forall s, Py.startswith s w = true -> forallb f s = true ->
            forallb f w = true.
Proof.
  induction w as [|x w IH]; intros [|y s] S A; simpl in *;
    try reflexivity; try discriminate.
  apply andb_true_iff in S as [E S]. apply N.eqb_eq in E; subst y.
  apply andb_true_iff in A as [A1 A2]. rewrite A1. simpl. eapply IH; eauto.
Qed.

Lemma whole_word_self (w : Py.str) :
  w <> [] -> forallb Re.is_word w = true ->
  Re.whole_word w None w = true.
Proof.
  intros N A. unfold Re.whole_word, Re.at_boundary.
  rewrite skipn_all, (last_before_word w None N A).
  pose proof (startswith_app w []) as P. rewrite app_nil_r in P.
  rewrite P. destruct w as [|c w]; [congruence|].
  simpl in A. apply andb_true_iff in A as [A _]. simpl. rewrite A.
  reflexivity.
Qed.

(** X15.  On a text that is a single word (word characters only) a rule
    with a non-empty key without a space replaces the text when the text
    is the key, and changes nothing when the key is only a part of it. *)
Theorem word_rule_on_single_word (content wrong correct : Py.str) :
  forallb Re.is_word content = true ->
  wrong <> [] ->
  Py.contains_char 32 wrong = false ->
  Py.contains_char 92 correct = false ->
  fix_rule content wrong correct
  = Some (if Py.eqb content wrong then correct else content).
Proof.
  intros A N S B. rewrite fix_rule_verbatim by assumption. f_equal.
  destruct content as [|c s].
  { destruct wrong; [congruence | reflexivity]. }
  simpl in A. apply andb_true_iff in A as [A1 A2].
  cbn [Py.scan].
  destruct (Re.whole_word wrong None (c :: s)) eqn:W.
  - unfold Re.whole_word in W.
    apply andb_true_iff in W as [W1 W2].
    apply andb_true_iff in W2 as [_ W3].
    assert (AW : forallb Re.is_word wrong = true).
    { apply (startswith_forallb _ _ (c :: s) W1). simpl.
      rewrite A1, A2. reflexivity. }
    pose proof (last_before_word wrong None N AW) as L.
    unfold Re.at_boundary in W3. rewrite L in W3.
    pose proof (startswith_skipn _ _ W1) as D.
    destruct (skipn (List.length wrong) (c :: s)) as [|d r] eqn:K.
    + rewrite app_nil_r in D. rewrite <- D.
      rewrite eqb_refl. destruct wrong as [|x w]; [congruence|].
      injection D as -> ->. cbn [List.length].
      pose proof (scan_skip (Re.whole_word (c :: s))
                    (Datatypes.S (List.length s)) correct s [] (Some c))
        as Q.
      rewrite app_nil_r in Q. rewrite Q. simpl.
      unfold Re.whole_word. simpl. apply app_nil_r.
    + exfalso.
      assert (Re.is_word d = true).
      { assert (F : forallb Re.is_word (c :: s) = true)
          by (simpl; rewrite A1, A2; reflexivity).
        apply (forallb_skipn _ (List.length wrong)) in F.
        rewrite K in F. simpl in F.
        apply andb_true_iff in F as [F _]. exact F. }
      simpl in W3. rewrite H in W3. discriminate.
  - assert (E : Py.eqb (c :: s) wrong = false).
    { apply eqb_neq. intros E. subst wrong.
      rewrite whole_word_self in W; [discriminate | exact N |].
      simpl. rewrite A1, A2. reflexivity. }
    rewrite E. f_equal. apply scan_no_match.
    apply no_match_inside_word; assumption.
Qed.

(** X16.  A rule with the empty key changes every text that holds a word
    character, unless its replacement expands to nothing. *)
Theorem empty_key_changes_text (content correct : Py.str) :
  correct <> [] ->
  Py.contains_char 92 correct = false ->
  existsb Re.is_word content = true ->
  exists fixed_content,
    fix_transcript content [([], correct)] = Some fixed_content
    /\ fixed_content <> content.
Proof.
  intros N B W.
  exists (insert_at_boundaries correct None content). split.
  - cbn [fix_transcript fix_rule Py.contains_char existsb].
    unfold Re.sub. rewrite parse_template_no_backslash by assumption.
    cbv zeta. rewrite matched_text_word_pattern, expand_literals.
    cbn [List.length]. rewrite scan_empty_key. reflexivity.
  - apply insert_at_boundaries_changes; assumption.
Qed.

End SingleRule.

(** ** Concrete runs of the further properties *)

Lemma word_rule_inserts_correct_verbatim_witness :
  Py.contains_char 32 (Py.lit "Lama") = false
  /\ Py.contains_char 92 (Py.lit "Llama") = false
  /\ fix_rule (U := ascii_table) (Py.lit "Lama is") (Py.lit "Lama")
       (Py.lit "Llama") = Some (Py.lit "Llama is").
Proof.
  split; [reflexivity|]. split; [reflexivity|].
  exact (word_rule_inserts_correct_verbatim (U := ascii_table)
           (Py.lit "Lama is") (Py.lit "Lama") (Py.lit "Llama")
           eq_refl eq_refl).
Defined.

Lemma create_fix_mapping_order_witness :
  Py.wf_dict [(Py.lit "Lama", Py.lit "Nova"); (Py.lit "GPT for", Py.lit "GPT-4")]
  /\ Py.keys (create_fix_mapping
                (Some [(Py.lit "Lama", Py.lit "Nova");
                       (Py.lit "GPT for", Py.lit "GPT-4")]))
     = Py.keys default_mapping ++ [Py.lit "GPT for"].
Proof.
  assert (W : Py.wf_dict [(Py.lit "Lama", Py.lit "Nova");
                          (Py.lit "GPT for", Py.lit "GPT-4")]).
  { repeat constructor; simpl; intuition discriminate. }
  split; [exact W|].
  exact (create_fix_mapping_order _ W).
Defined.

Lemma fix_transcript_merged_returns_witness :
  (forall m wrong correct,
     Some [(Py.lit "Lama", Py.lit "Nova")] = Some m ->
     In (wrong, correct) m -> Py.contains_char 92 correct = false)
  /\ exists fixed_content,
       fix_transcript (U := ascii_table) (Py.lit "Lama is great")
         (create_fix_mapping (Some [(Py.lit "Lama", Py.lit "Nova")]))
       = Some fixed_content.
Proof.
  assert (H : forall m wrong correct,
             Some [(Py.lit "Lama", Py.lit "Nova")] = Some m ->
             In (wrong, correct) m -> Py.contains_char 92 correct = false).
  { intros m wrong correct E I. injection E as <-.
    destruct I as [I|[]]. injection I as <- <-. reflexivity. }
  split; [exact H|].
  exact (fix_transcript_merged_returns (U := ascii_table) _ _ H).
Defined.

Lemma text_without_match_unchanged_witness :
  has_rejected_rule [(Py.lit "Lama", Py.lit "Llama")] = false
  /\ fix_transcript (U := ascii_table) (Py.lit "Lama2 is great")
       [(Py.lit "Lama", Py.lit "Llama")] = Some (Py.lit "Lama2 is great").
Proof.
  split; [reflexivity|].
  apply (text_without_match_unchanged (U := ascii_table)).
  - reflexivity.
  - intros wrong correct [E|[]]. injection E as <- <-.
    vm_compute; reflexivity.
Defined.

Lemma rule_to_itself_unchanged_witness :
  Py.contains_char 32 (Py.lit "Lama")
  || negb (Py.contains_char 92 (Py.lit "Lama")) = true
  /\ fix_rule (U := ascii_table) (Py.lit "a Lama b") (Py.lit "Lama")
       (Py.lit "Lama") = Some (Py.lit "a Lama b").
Proof.
  split; [reflexivity|].
  apply (rule_to_itself_unchanged (U := ascii_table)). reflexivity.
Defined.


Lemma main_writes_input_in_place_witness :
  Py.truthy_str None = false
  /\ read_text (os_ok (Py.lit "noose")) (Py.lit "input.md")
     = inr (Py.lit "noose")
  /\ writes_of (fst (main_run (U := ascii_table) (os_ok (Py.lit "noose"))
                       (Py.lit "input.md") None))
     = [(Py.lit "input.md", Py.lit "Nous")].
Proof.
  split; [reflexivity|]. split; [reflexivity|].
  destruct (main_writes_input_in_place (U := ascii_table)
              (os_ok (Py.lit "noose")) (Py.lit "input.md") None
              (Py.lit "noose") eq_refl eq_refl) as (fixed & F & H).
  rewrite H.
  assert (E : fix_transcript (U := ascii_table) (Py.lit "noose")
                default_mapping = Some (Py.lit "Nous"))
    by (vm_compute; reflexivity).
  rewrite E in F. injection F as <-. reflexivity.
Defined.


Lemma absent_key_unchanged_witness :
  Py.find (Py.lit "Lama") (Py.lit "hello") = false
  /\ rejected_rule (Py.lit "Lama", Py.lit "Llama") = false
  /\ fix_rule (U := ascii_table) (Py.lit "hello") (Py.lit "Lama")
       (Py.lit "Llama") = Some (Py.lit "hello").
Proof.
  split; [reflexivity|]. split; [reflexivity|].
  exact (absent_key_unchanged (U := ascii_table) (Py.lit "hello")
           (Py.lit "Lama") (Py.lit "Llama") eq_refl eq_refl).
Defined.

Lemma phrase_rule_at_start_witness :
  Py.contains_char 32 (Py.lit "Kyle Lowe") = true
  /\ fix_rule (U := ascii_table) (Py.lit "Kyle Lowexpert spoke")
       (Py.lit "Kyle Lowe") (Py.lit "Kyle Lo")
     = Some (Py.lit "Kyle Loxpert spoke").
Proof.
  split; [reflexivity|].
  exact (phrase_rule_at_start (U := ascii_table) (Py.lit "Kyle Lowe")
           (Py.lit "Kyle Lo") (Py.lit "xpert spoke") eq_refl).
Defined.

Lemma word_rule_on_single_word_witness :
  forallb (Re.is_word (U := ascii_table)) (Py.lit "Lama2") = true
  /\ Py.lit "Lama" <> []
  /\ fix_rule (U := ascii_table) (Py.lit "Lama2") (Py.lit "Lama")
       (Py.lit "Llama") = Some (Py.lit "Lama2").
Proof.
  assert (N : Py.lit "Lama" <> []) by discriminate.
  split; [reflexivity|]. split; [exact N|].
  exact (word_rule_on_single_word (U := ascii_table) (Py.lit "Lama2")
           (Py.lit "Lama") (Py.lit "Llama") eq_refl N eq_refl eq_refl).
Defined.

Lemma empty_key_changes_text_witness :
  Py.lit "X" <> []
  /\ existsb (Re.is_word (U := ascii_table)) (Py.lit "ab") = true
  /\ exists fixed_content,
       fix_transcript (U := ascii_table) (Py.lit "ab") [([], Py.lit "X")]
       = Some fixed_content
       /\ fixed_content <> Py.lit "ab".
Proof.
  assert (N : Py.lit "X" <> []) by discriminate.
  split; [exact N|]. split; [reflexivity|].
  exact (empty_key_changes_text (U := ascii_table) (Py.lit "ab")
           (Py.lit "X") N eq_refl eq_refl).
Defined.
